(** * The station signer of ev-energy-trade ([server.js])

    A shallow embedding of the [POST /sign-stop] handler and of the two
    top-level helpers it uses ([domain], [types]), followed by the properties
    of the request path.

    The handler is JavaScript running on Express with the [ethers] library
    (v5 API: [ethers.utils.isAddress], [wallet._signTypedData]).  Express and
    ethers are not part of the repository: the response object is modelled
    by the events the handler emits, and ethers by an interface ([Ethers])
    whose operations the handler calls. *)

From Stdlib Require Import String Ascii List ZArith Bool Lia.
From Stdlib Require Import DecimalString.
Import ListNotations.
Open Scope string_scope.
Open Scope list_scope.
Set Warnings "-register-all".

(* ================================================================= *)
(** ** JavaScript values *)

(** What [express.json()] hands to the handler: the JSON data model, plus
    [undefined] for a property that is absent.  Objects keep their properties
    in insertion order.  Numbers are never inspected by the handler; the
    model carries the integral ones. *)
Inductive JSValue : Type :=
| VUndefined
| VNull
| VBool (b : bool)
| VNumber (n : Z)
| VString (s : string)
| VArray (items : list JSValue)
| VObject (props : list (string * JSValue)).

(** A thrown [Error]: its constructor's name and its [message]. *)
Record JSError : Type := mkError { err_name : string; err_message : string }.

(** Own-property lookup; a later binding of a key overrides an earlier one,
    as [JSON.parse] does. *)
Fixpoint lookup (k : string) (ps : list (string * JSValue)) : JSValue :=
  match ps with
  | [] => VUndefined
  | (k', v) :: rest =>
      match lookup k rest with
      | VUndefined => if String.eqb k k' then v else VUndefined
      | later => later
      end
  end.

(** [o.k] for a value that came out of [JSON.parse]: none of the six keys
    the handler reads is defined on a prototype, so only objects answer. *)
Definition get_prop (o : JSValue) (k : string) : JSValue :=
  match o with
  | VObject ps => lookup k ps
  | _ => VUndefined
  end.

Definition nullish (v : JSValue) : bool :=
  match v with
  | VUndefined | VNull => true
  | _ => false
  end.

(** [String.prototype.toLowerCase] on the ASCII letters (addresses are
    ASCII; other code units are left as they are). *)
Definition lower_ascii (c : ascii) : ascii :=
  let n := nat_of_ascii c in
  if (65 <=? n)%nat && (n <=? 90)%nat then ascii_of_nat (n + 32) else c.

Fixpoint String_toLowerCase (s : string) : string :=
  match s with
  | EmptyString => EmptyString
  | String c rest => String (lower_ascii c) (String_toLowerCase rest)
  end.

(* ================================================================= *)
(** ** Effects: the event log and exceptions *)

(** What the handler does to the outside, in the order it does it. *)
Inductive Event : Type :=
| EvIsAddress (v : JSValue)                    (* ethers.utils.isAddress(v) *)
| EvSignTypedData (d t v : JSValue)            (* wallet._signTypedData(d, t, v) *)
| EvConsoleError (e : JSError)                 (* console.error(e) *)
| EvStatus (code : Z)                          (* res.status(code) *)
| EvJson (body : JSValue).                     (* res.json(body): sends the response *)

Inductive Completion (A : Type) : Type :=
| Normal (a : A)
| Throw (e : JSError).
Arguments Normal {A} a.
Arguments Throw {A} e.

(** A computation: the events it emitted and how it completed. *)
Definition Js (A : Type) : Type := (list Event * Completion A)%type.

Definition ret {A} (a : A) : Js A := ([], Normal a).
Definition throw {A} (e : JSError) : Js A := ([], Throw e).
Definition emit (ev : Event) : Js unit := ([ev], Normal tt).

Definition bind {A B} (m : Js A) (k : A -> Js B) : Js B :=
  match m with
  | (tr, Normal a) => let (tr', r) := k a in (tr ++ tr', r)
  | (tr, Throw e) => (tr, Throw e)
  end.

(** [try { m } catch (e) { h e }] *)
Definition try_catch {A} (m : Js A) (h : JSError -> Js A) : Js A :=
  match m with
  | (tr, Throw e) => let (tr', r) := h e in (tr ++ tr', r)
  | done => done
  end.

Notation "x <- m ;; k" := (bind m (fun x => k))
  (at level 61, m at next level, right associativity).
Notation "m ;;; k" := (bind m (fun _ => k))
  (at level 61, right associativity).

(** [a || b] on computations: [b] runs only when [a] is false. *)
Definition orJs (a b : Js bool) : Js bool :=
  x <- a ;; if x then ret true else b.

Definition events {A} (m : Js A) : list Event := fst m.

(* ================================================================= *)
(** ** The response object *)

Record Response : Type := mkResponse { status : Z; body : JSValue }.

(** The responses a run sent: each [res.json] sends one, with the status
    set by the last [res.status] before it (200 when none was set). *)
Fixpoint sent_from (code : Z) (tr : list Event) : list Response :=
  match tr with
  | [] => []
  | EvStatus c :: rest => sent_from c rest
  | EvJson b :: rest => mkResponse code b :: sent_from code rest
  | _ :: rest => sent_from code rest
  end.

Definition responses {A} (m : Js A) : list Response := sent_from 200 (events m).

Definition is_sign_event (ev : Event) : bool :=
  match ev with
  | EvSignTypedData _ _ _ => true
  | _ => false
  end.

(** The calls of [wallet._signTypedData] a run made. *)
Definition sign_calls {A} (m : Js A) : list Event := filter is_sign_event (events m).

(** [{ error: msg }] *)
Definition error_body (msg : string) : JSValue := VObject [("error", VString msg)].

(* ================================================================= *)
(** ** The ethers interface *)

(** The operations of ethers the service relies on.  [Wallet] is the result
    of [new ethers.Wallet(STATION_PK)]; [Entropy] stands for whatever ambient
    randomness the library could draw on while signing.  [verifyTypedData]
    is [ethers.utils.verifyTypedData], the independent verifier's side. *)
Class Ethers : Type := {
  Wallet : Type;
  Entropy : Type;
  privateKey : Wallet -> string;
  address : Wallet -> string;
  isAddress : JSValue -> bool;
  signTypedData : Entropy -> Wallet -> JSValue -> JSValue -> JSValue -> Completion string;
  verifyTypedData : JSValue -> JSValue -> JSValue -> string -> Completion string
}.

(** [getAddress] refuses whatever is not a string. *)
Definition isAddress_only_strings (E : Ethers) : Prop :=
  forall v, isAddress v = true -> exists s, v = VString s.


(* ================================================================= *)
(** ** server.js *)

(** [function domain(chainId, contractAddr)] *)
Definition domain (chainId contractAddr : JSValue) : JSValue :=
  VObject [ ("name", VString "EVEnergy");
            ("version", VString "1");
            ("chainId", chainId);
            ("verifyingContract", contractAddr) ].

Definition field (name type : string) : JSValue :=
  VObject [("name", VString name); ("type", VString type)].

(** [const types] *)
Definition types : JSValue :=
  VObject [ ("SessionStop",
             VArray [ field "user" "address";
                      field "station" "address";
                      field "sessionId" "bytes32";
                      field "kWhMilli" "uint256";
                      field "chainId" "uint256";
                      field "contractAddr" "address" ]) ].

(** The six constants bound by
    [const { user, station, sessionId, kWhMilli, chainId, contractAddr } = req.body]. *)
Record Claim : Type := mkClaim {
  user : JSValue;
  station : JSValue;
  sessionId : JSValue;
  kWhMilli : JSValue;
  chainId : JSValue;
  contractAddr : JSValue
}.

Definition claim_of (req_body : JSValue) : Claim :=
  {| user := get_prop req_body "user";
     station := get_prop req_body "station";
     sessionId := get_prop req_body "sessionId";
     kWhMilli := get_prop req_body "kWhMilli";
     chainId := get_prop req_body "chainId";
     contractAddr := get_prop req_body "contractAddr" |}.

(** What V8 prints for a value in its messages; only [undefined] and
    [null] are ever printed here. *)
Definition printed (v : JSValue) : string :=
  match v with
  | VNull => "null"
  | _ => "undefined"
  end.

(** Destructuring [undefined] or [null] throws a [TypeError]. *)
Definition destructure (req_body : JSValue) : Js Claim :=
  if nullish req_body
  then throw (mkError "TypeError"
                ("Cannot destructure property 'user' of 'req.body' as it is "
                 ++ printed req_body ++ "."))
  else ret (claim_of req_body).

(** [const value = { user, station, sessionId, kWhMilli, chainId, contractAddr }] *)
Definition value_of (c : Claim) : JSValue :=
  VObject [ ("user", user c);
            ("station", station c);
            ("sessionId", sessionId c);
            ("kWhMilli", kWhMilli c);
            ("chainId", chainId c);
            ("contractAddr", contractAddr c) ].

(** [v.toLowerCase()]: a method of strings only; on anything else that
    [JSON.parse] can produce the call throws a [TypeError]. *)
Definition toLowerCase (v : JSValue) : Js string :=
  match v with
  | VString s => ret (String_toLowerCase s)
  | VUndefined | VNull =>
      throw (mkError "TypeError"
               ("Cannot read properties of " ++ printed v ++ " (reading 'toLowerCase')"))
  | _ => throw (mkError "TypeError" "station.toLowerCase is not a function")
  end.

(** [e.message || "sign failed"] *)
Definition message_or (e : JSError) (fallback : string) : string :=
  if String.eqb (err_message e) "" then fallback else err_message e.

Definition res_status (code : Z) : Js unit := emit (EvStatus code).
Definition res_json (b : JSValue) : Js unit := emit (EvJson b).
Definition console_error (e : JSError) : Js unit := emit (EvConsoleError e).

Section Server.

Context {E : Ethers}.

(** [const wallet = new ethers.Wallet(STATION_PK)], built once at start. *)
Variable wallet : Wallet.

(** The ambient randomness of one request. *)
Variable rnd : Entropy.

Definition ethers_utils_isAddress (v : JSValue) : Js bool :=
  emit (EvIsAddress v) ;;; ret (isAddress v).

Definition wallet_signTypedData (d t v : JSValue) : Js string :=
  emit (EvSignTypedData d t v) ;;; ([], signTypedData rnd wallet d t v).

Definition not_isAddress (v : JSValue) : Js bool :=
  b <- ethers_utils_isAddress v ;; ret (negb b).

(** [app.post("/sign-stop", async (req, res) => { ... })] *)
Definition sign_stop (req_body : JSValue) : Js unit :=
  try_catch
    (c <- destructure req_body ;;
     bad <- orJs (orJs (not_isAddress (user c)) (not_isAddress (station c)))
                 (not_isAddress (contractAddr c)) ;;
     if bad then
       res_status 400 ;;; res_json (error_body "Bad address in payload")
     else
       lower <- toLowerCase (station c) ;;
       if negb (String.eqb lower (String_toLowerCase (address wallet))) then
         res_status 400 ;;; res_json (error_body "Station address mismatch")
       else
         let value := value_of c in
         sig <- wallet_signTypedData (domain (chainId c) (contractAddr c)) types value ;;
         res_json (VObject [("signature", VString sig); ("signer", VString (address wallet))]))
    (fun e =>
       console_error e ;;;
       res_status 500 ;;;
       res_json (error_body (message_or e "sign failed"))).

End Server.

(* ================================================================= *)
(** ** An executable stand-in for ethers *)

(** The examples below run the handler on concrete requests against this
    small implementation of the interface.  It accepts what ethers v5
    accepts on the inputs used here: an address is 40 hex digits, with or
    without [0x]; the typed-data encoder wants addresses as [0x]-prefixed
    20-byte hex strings (anything else is taken for an ENS name, which a
    wallet without a provider cannot resolve), [bytes32] as a [0x]-prefixed
    32-byte hex string and [uint256] as an integer in [0, 2^256), given as a
    safe number or a decimal string.  Hashing and ECDSA are replaced by a
    transparent encoding: a signature is the printed typed data followed by
    the signer's address.  Error messages are cut down to the reason ethers
    gives.  Mixed-case (checksummed) and ICAP addresses are not covered: the
    stand-in refuses them. *)
Module TestDouble.
#[local] Open Scope string_scope.

Definition in_range (lo hi : nat) (c : ascii) : bool :=
  let n := nat_of_ascii c in (lo <=? n)%nat && (n <=? hi)%nat.

Definition is_digit (c : ascii) : bool := in_range 48 57 c.
Definition is_lower_hex (c : ascii) : bool := in_range 97 102 c.
Definition is_upper_hex (c : ascii) : bool := in_range 65 70 c.
Definition is_hex_digit (c : ascii) : bool :=
  is_digit c || is_lower_hex c || is_upper_hex c.

Fixpoint all_chars (p : ascii -> bool) (s : string) : bool :=
  match s with
  | EmptyString => true
  | String c rest => p c && all_chars p rest
  end.

Fixpoint some_char (p : ascii -> bool) (s : string) : bool :=
  match s with
  | EmptyString => false
  | String c rest => p c || some_char p rest
  end.

Definition strip_0x (s : string) : option string :=
  match s with
  | String "0" (String "x" rest) => Some rest
  | _ => None
  end.

Definition hex_of_length (n : nat) (s : string) : bool :=
  (String.length s =? n)%nat && all_chars is_hex_digit s.

Definition single_case (s : string) : bool :=
  negb (some_char is_lower_hex s && some_char is_upper_hex s).

Definition isAddress_string (s : string) : bool :=
  let digits := match strip_0x s with Some rest => rest | None => s end in
  hex_of_length 40 digits && single_case digits.

Definition stub_isAddress (v : JSValue) : bool :=
  match v with
  | VString s => isAddress_string s
  | _ => false
  end.

(** [isHexString(v, n)] *)
Definition isHexString (v : JSValue) (n : nat) : bool :=
  match v with
  | VString s =>
      match strip_0x s with
      | Some rest => hex_of_length (2 * n) rest
      | None => false
      end
  | _ => false
  end.

Fixpoint parse_digits (acc : Z) (s : string) : option Z :=
  match s with
  | EmptyString => Some acc
  | String c rest =>
      if is_digit c
      then parse_digits (10 * acc + Z.of_nat (nat_of_ascii c - 48)) rest
      else None
  end.

Definition is_uint256 (v : JSValue) : bool :=
  match v with
  | VNumber n => (0 <=? n)%Z && (n <? 2 ^ 53 - 1)%Z
  | VString (String c rest) =>
      match parse_digits 0 (String c rest) with
      | Some n => (n <? 2 ^ 256)%Z
      | None => false
      end
  | _ => false
  end.

Fixpoint show (v : JSValue) : string :=
  match v with
  | VUndefined => "undefined"
  | VNull => "null"
  | VBool b => if b then "true" else "false"
  | VNumber n => NilZero.string_of_int (Z.to_int n)
  | VString s => "'" ++ s ++ "'"
  | VArray items =>
      "[" ++ (fix show_items (l : list JSValue) : string :=
                match l with
                | [] => ""
                | x :: rest => show x ++ "," ++ show_items rest
                end) items ++ "]"
  | VObject props =>
      "{" ++ (fix show_props (l : list (string * JSValue)) : string :=
                match l with
                | [] => ""
                | (k, x) :: rest => k ++ ":" ++ show x ++ "," ++ show_props rest
                end) props ++ "}"
  end.

Definition digest (d t v : JSValue) : string := show d ++ show t ++ show v.

Record StubWallet : Type := mkWallet { stub_privateKey : string; stub_address : string }.

Definition invalid (msg : string) : Completion string := Throw (mkError "Error" msg).

Definition stub_signTypedData (_ : nat) (w : StubWallet) (d t v : JSValue) : Completion string :=
  if negb (isHexString (get_prop d "verifyingContract") 20
           && isHexString (get_prop v "user") 20
           && isHexString (get_prop v "station") 20
           && isHexString (get_prop v "contractAddr") 20)
  then invalid "cannot resolve ENS names without a provider"
  else if negb (is_uint256 (get_prop d "chainId"))
  then invalid "invalid BigNumber value"
  else if negb (isHexString (get_prop v "sessionId") 32)
  then invalid "invalid length for bytes32"
  else if negb (is_uint256 (get_prop v "kWhMilli"))
  then invalid "invalid BigNumber string"
  else Normal (digest d t v ++ stub_address w).

Fixpoint strip_prefix (p s : string) : option string :=
  match p, s with
  | EmptyString, _ => Some s
  | String a p', String b s' => if Ascii.eqb a b then strip_prefix p' s' else None
  | String _ _, EmptyString => None
  end.

Definition stub_verifyTypedData (d t v : JSValue) (sig : string) : Completion string :=
  match strip_prefix (digest d t v) sig with
  | Some signer => Normal signer
  | None => invalid "invalid signature"
  end.

#[export] Instance stub : Ethers := {|
  Wallet := StubWallet;
  Entropy := nat;
  privateKey := stub_privateKey;
  address := stub_address;
  isAddress := stub_isAddress;
  signTypedData := stub_signTypedData;
  verifyTypedData := stub_verifyTypedData
|}.






(** A station: the account of the repository's network configuration,
    with the (checksummed) address that belongs to its key. *)
Definition station_wallet : StubWallet :=
  {| stub_privateKey := "0x3c48a8955d7f2a297d1afeaae62c04519aba5f1ab123114890cb1721e31844a5";
     stub_address := "0xD089d1193EE7ecAfcab2A085Ae980068644d52B7" |}.

Definition request (user station sessionId kWhMilli chainId contractAddr : JSValue) : JSValue :=
  VObject [ ("user", user); ("station", station); ("sessionId", sessionId);
            ("kWhMilli", kWhMilli); ("chainId", chainId); ("contractAddr", contractAddr) ].

Definition addr1 : JSValue := VString "0x1111111111111111111111111111111111111111".
(** The station's address as a client may send it, in lower case. *)
Definition addr2 : JSValue := VString "0xd089d1193ee7ecafcab2a085ae980068644d52b7".
Definition addr3 : JSValue := VString "0x3333333333333333333333333333333333333333".
Definition addr4 : JSValue := VString "0x4444444444444444444444444444444444444444".
Definition session1 : JSValue :=
  VString "0x0000000000000000000000000000000000000000000000000000000000000001".

Definition good_request : JSValue :=
  request addr1 addr2 session1 (VString "12345") (VNumber 1337) addr3.

Definition short_session_request : JSValue :=
  request addr1 addr2 (VString "0x01") (VString "12345") (VNumber 1337) addr3.

Definition bad_amount_request : JSValue :=
  request addr1 addr2 session1 (VString "abc") (VNumber 1337) addr3.

Definition other_station_request : JSValue :=
  request addr1 addr4 session1 (VString "12345") (VNumber 1337) addr3.

Definition no_user_request : JSValue :=
  VObject [ ("station", addr2); ("sessionId", session1); ("kWhMilli", VString "12345");
            ("chainId", VNumber 1337); ("contractAddr", addr3) ].

Definition bad_contract_request : JSValue :=
  request addr1 addr2 session1 (VString "12345") (VNumber 1337) (VString "0x33").

End TestDouble.


(* ================================================================= *)
(** ** Vocabulary of the properties *)

Section Vocabulary.

Context {E : Ethers}.
Variable wallet : Wallet.

(** [user], [station] and [contractAddr] are all syntactically valid. *)
Definition valid_addresses (c : Claim) : bool :=
  isAddress (user c) && isAddress (station c) && isAddress (contractAddr c).

(** [station] equals the service's address, letter case apart. *)
Definition station_matches (v : JSValue) : bool :=
  match v with
  | VString s => String.eqb (String_toLowerCase s) (String_toLowerCase (address wallet))
  | _ => false
  end.

(** The rejection the validator answered with, if it rejected: the
    handler's two validation exits are its only responses of status 400. *)
Definition validation_rejection (rnd : Entropy) (req_body : JSValue) : option JSValue :=
  match responses (sign_stop wallet rnd req_body) with
  | [r] => if (status r =? 400)%Z then Some (body r) else None
  | _ => None
  end.

(** What the [catch] block does with the error it caught. *)
Definition caught (e : JSError) : list Event :=
  [ EvConsoleError e; EvStatus 500; EvJson (error_body (message_or e "sign failed")) ].

(** The three [isAddress] calls of a claim that passes them. *)
Definition address_checks (c : Claim) : list Event :=
  [ EvIsAddress (user c); EvIsAddress (station c); EvIsAddress (contractAddr c) ].

(** What the signer answers when it is handed the typed data of [c]. *)
Definition signer_answer (rnd : Entropy) (c : Claim) : Completion string :=
  signTypedData rnd wallet (domain (chainId c) (contractAddr c)) types (value_of c).

(** The validator's answer written as a function of the three address
    fields alone: [Some body] for a rejection, [None] otherwise. *)
Definition validator_decision (u s ca : JSValue) : option JSValue :=
  if negb (isAddress u && isAddress s && isAddress ca)
  then Some (error_body "Bad address in payload")
  else if station_matches s
  then None
  else match s with
       | VString _ => Some (error_body "Station address mismatch")
       | _ => None
       end.

(** The eight ways through the handler, each with the run it produces. *)
Inductive Path (rnd : Entropy) (req_body : JSValue) : Js unit -> Prop :=
| NoBody (e : JSError) :
    nullish req_body = true ->
    Path rnd req_body (caught e, Normal tt)
| BadUser :
    nullish req_body = false ->
    isAddress (user (claim_of req_body)) = false ->
    Path rnd req_body
      ([EvIsAddress (user (claim_of req_body)); EvStatus 400;
        EvJson (error_body "Bad address in payload")], Normal tt)
| BadStation :
    nullish req_body = false ->
    isAddress (user (claim_of req_body)) = true ->
    isAddress (station (claim_of req_body)) = false ->
    Path rnd req_body
      ([EvIsAddress (user (claim_of req_body)); EvIsAddress (station (claim_of req_body));
        EvStatus 400; EvJson (error_body "Bad address in payload")], Normal tt)
| BadContract :
    nullish req_body = false ->
    isAddress (user (claim_of req_body)) = true ->
    isAddress (station (claim_of req_body)) = true ->
    isAddress (contractAddr (claim_of req_body)) = false ->
    Path rnd req_body
      (address_checks (claim_of req_body)
         ++ [EvStatus 400; EvJson (error_body "Bad address in payload")], Normal tt)
| StationNotAString (e : JSError) :
    nullish req_body = false ->
    valid_addresses (claim_of req_body) = true ->
    (forall s, station (claim_of req_body) <> VString s) ->
    Path rnd req_body (address_checks (claim_of req_body) ++ caught e, Normal tt)
| Mismatch (s : string) :
    nullish req_body = false ->
    valid_addresses (claim_of req_body) = true ->
    station (claim_of req_body) = VString s ->
    station_matches (station (claim_of req_body)) = false ->
    Path rnd req_body
      (address_checks (claim_of req_body)
         ++ [EvStatus 400; EvJson (error_body "Station address mismatch")], Normal tt)
| Signed (sig : string) :
    nullish req_body = false ->
    valid_addresses (claim_of req_body) = true ->
    station_matches (station (claim_of req_body)) = true ->
    signTypedData rnd wallet
      (domain (chainId (claim_of req_body)) (contractAddr (claim_of req_body)))
      types (value_of (claim_of req_body)) = Normal sig ->
    Path rnd req_body
      (address_checks (claim_of req_body)
         ++ [EvSignTypedData
               (domain (chainId (claim_of req_body)) (contractAddr (claim_of req_body)))
               types (value_of (claim_of req_body));
             EvJson (VObject [("signature", VString sig);
                              ("signer", VString (address wallet))])],
       Normal tt)
| SignFailed (e : JSError) :
    nullish req_body = false ->
    valid_addresses (claim_of req_body) = true ->
    station_matches (station (claim_of req_body)) = true ->
    signTypedData rnd wallet
      (domain (chainId (claim_of req_body)) (contractAddr (claim_of req_body)))
      types (value_of (claim_of req_body)) = Throw e ->
    Path rnd req_body
      (address_checks (claim_of req_body)
         ++ [EvSignTypedData
               (domain (chainId (claim_of req_body)) (contractAddr (claim_of req_body)))
               types (value_of (claim_of req_body))]
         ++ caught e,
       Normal tt).

End Vocabulary.

(** [needle] occurs in [hay]. *)
Fixpoint contains (needle hay : string) : bool :=
  if String.prefix needle hay then true
  else match hay with
       | EmptyString => false
       | String _ rest => contains needle rest
       end.

(** A message names a field when the field's name occurs in it. *)
Definition names_field (msg field_name : string) : bool := contains field_name msg.

(* ================================================================= *)
(** ** Vocabulary of the trace and of the typed data *)

Definition is_isAddress_event (ev : Event) : bool :=
  match ev with
  | EvIsAddress _ => true
  | _ => false
  end.

(** The calls of [ethers.utils.isAddress] a run made. *)
Definition isAddress_calls {A} (m : Js A) : list Event :=
  filter is_isAddress_event (events m).

(** The status codes of the responses a run sent. *)
Definition statuses {A} (m : Js A) : list Z := map status (responses m).

(** [Object.keys(o)] of an object whose keys are all distinct. *)
Definition keys (o : JSValue) : list string :=
  match o with
  | VObject ps => map fst ps
  | _ => []
  end.

(** The [(name, type)] pairs a schema declares for the struct [struct]. *)
Definition schema_fields (schema : JSValue) (struct : string) : list (string * string) :=
  match get_prop schema struct with
  | VArray items =>
      flat_map (fun f => match get_prop f "name", get_prop f "type" with
                         | VString n, VString t => [(n, t)]
                         | _, _ => []
                         end) items
  | _ => []
  end.

(** The names of the fields a schema gives the type [type]. *)
Definition fields_of_type (schema : JSValue) (struct type : string) : list string :=
  map fst (filter (fun nt => String.eqb (snd nt) type) (schema_fields schema struct)).

(* ================================================================= *)
(** ** The paths of the handler *)

(** One step of the handler: reduce the monad, leave the claim's fields and
    the typed data folded. *)
Ltac run :=
  cbn -[claim_of domain types value_of toLowerCase String_toLowerCase String.eqb
        address_checks caught].

(** Enter the [try] block of a request whose body can be destructured. *)
Ltac enter Hn := unfold sign_stop, destructure; rewrite Hn; run.

Section Paths.

Context {E : Ethers}.
Variable wallet : Wallet.
Variable rnd : Entropy.
Variable req_body : JSValue.

Let c := claim_of req_body.

Lemma toLowerCase_string (v : JSValue) (s : string) :
  v = VString s -> toLowerCase v = ret (String_toLowerCase s).
Proof. intros ->. reflexivity. Qed.

Lemma toLowerCase_throws (v : JSValue) :
  (forall s, v <> VString s) -> exists e, toLowerCase v = throw e.
Proof.
  intros Hv. destruct v; try solve [eexists; reflexivity].
  exfalso. eapply Hv. reflexivity.
Qed.

Lemma station_matches_string :
  station_matches wallet (station c) = true ->
  exists s, station c = VString s /\
            String.eqb (String_toLowerCase s) (String_toLowerCase (address wallet)) = true.
Proof.
  unfold station_matches. destruct (station c); try discriminate.
  intros H. eauto.
Qed.

Lemma path_nullish :
  nullish req_body = true ->
  exists e, sign_stop wallet rnd req_body = (caught e, Normal tt).
Proof.
  intros Hn. unfold sign_stop, destructure. rewrite Hn.
  eexists. reflexivity.
Qed.

Lemma path_bad_user :
  nullish req_body = false ->
  isAddress (user c) = false ->
  sign_stop wallet rnd req_body =
    ([EvIsAddress (user c); EvStatus 400; EvJson (error_body "Bad address in payload")],
     Normal tt).
Proof.
  intros Hn Hu. subst c. enter Hn. rewrite Hu. reflexivity.
Qed.

Lemma path_bad_station :
  nullish req_body = false ->
  isAddress (user c) = true ->
  isAddress (station c) = false ->
  sign_stop wallet rnd req_body =
    ([EvIsAddress (user c); EvIsAddress (station c); EvStatus 400;
      EvJson (error_body "Bad address in payload")],
     Normal tt).
Proof.
  intros Hn Hu Hs. subst c. enter Hn. rewrite Hu. run. rewrite Hs. reflexivity.
Qed.

Lemma path_bad_contract :
  nullish req_body = false ->
  isAddress (user c) = true ->
  isAddress (station c) = true ->
  isAddress (contractAddr c) = false ->
  sign_stop wallet rnd req_body =
    (address_checks c ++ [EvStatus 400; EvJson (error_body "Bad address in payload")],
     Normal tt).
Proof.
  intros Hn Hu Hs Hc. subst c. enter Hn.
  rewrite Hu. run. rewrite Hs. run. rewrite Hc. reflexivity.
Qed.

Lemma path_mismatch (s : string) :
  nullish req_body = false ->
  isAddress (user c) = true ->
  isAddress (station c) = true ->
  isAddress (contractAddr c) = true ->
  station c = VString s ->
  String.eqb (String_toLowerCase s) (String_toLowerCase (address wallet)) = false ->
  sign_stop wallet rnd req_body =
    (address_checks c ++ [EvStatus 400; EvJson (error_body "Station address mismatch")],
     Normal tt).
Proof.
  intros Hn Hu Hs Hc Hstr Hne. subst c. enter Hn.
  rewrite Hu. run. rewrite Hs. run. rewrite Hc. run.
  rewrite (toLowerCase_string _ _ Hstr). run. rewrite Hne. reflexivity.
Qed.

Lemma path_not_a_string :
  nullish req_body = false ->
  isAddress (user c) = true ->
  isAddress (station c) = true ->
  isAddress (contractAddr c) = true ->
  (forall s, station c <> VString s) ->
  exists e, sign_stop wallet rnd req_body = (address_checks c ++ caught e, Normal tt).
Proof.
  intros Hn Hu Hs Hc Hstr. subst c.
  destruct (toLowerCase_throws _ Hstr) as (e & He).
  exists e. enter Hn.
  rewrite Hu. run. rewrite Hs. run. rewrite Hc. run.
  rewrite He. reflexivity.
Qed.

Lemma path_signed (sig : string) :
  nullish req_body = false ->
  isAddress (user c) = true ->
  isAddress (station c) = true ->
  isAddress (contractAddr c) = true ->
  station_matches wallet (station c) = true ->
  signTypedData rnd wallet (domain (chainId c) (contractAddr c)) types (value_of c) = Normal sig ->
  sign_stop wallet rnd req_body =
    (address_checks c
       ++ [EvSignTypedData (domain (chainId c) (contractAddr c)) types (value_of c);
           EvJson (VObject [("signature", VString sig); ("signer", VString (address wallet))])],
     Normal tt).
Proof.
  intros Hn Hu Hs Hc Hm Hsig.
  destruct (station_matches_string Hm) as (s & Hstr & Heq).
  subst c. enter Hn.
  rewrite Hu. run. rewrite Hs. run. rewrite Hc. run.
  rewrite (toLowerCase_string _ _ Hstr). run. rewrite Heq. run.
  rewrite Hsig. reflexivity.
Qed.

Lemma path_sign_failed (e : JSError) :
  nullish req_body = false ->
  isAddress (user c) = true ->
  isAddress (station c) = true ->
  isAddress (contractAddr c) = true ->
  station_matches wallet (station c) = true ->
  signTypedData rnd wallet (domain (chainId c) (contractAddr c)) types (value_of c) = Throw e ->
  sign_stop wallet rnd req_body =
    (address_checks c
       ++ [EvSignTypedData (domain (chainId c) (contractAddr c)) types (value_of c)]
       ++ caught e,
     Normal tt).
Proof.
  intros Hn Hu Hs Hc Hm Hsig.
  destruct (station_matches_string Hm) as (s & Hstr & Heq).
  subst c. enter Hn.
  rewrite Hu. run. rewrite Hs. run. rewrite Hc. run.
  rewrite (toLowerCase_string _ _ Hstr). run. rewrite Heq. run.
  rewrite Hsig. reflexivity.
Qed.

Lemma valid_addresses_true :
  valid_addresses c = true <->
  isAddress (user c) = true /\ isAddress (station c) = true
  /\ isAddress (contractAddr c) = true.
Proof.
  unfold valid_addresses. rewrite !andb_true_iff. tauto.
Qed.

Lemma string_or_not (v : JSValue) :
  (exists s, v = VString s) \/ (forall s, v <> VString s).
Proof.
  destruct v; try (right; intros s' H; discriminate H).
  left. eauto.
Qed.

(** Every run of the handler follows one of the eight paths. *)
Lemma sign_stop_path : Path wallet rnd req_body (sign_stop wallet rnd req_body).
Proof.
  destruct (nullish req_body) eqn:Hn.
  { destruct (path_nullish Hn) as (e & ->). now constructor. }
  destruct (isAddress (user c)) eqn:Hu.
  2:{ rewrite (path_bad_user Hn Hu). now constructor. }
  destruct (isAddress (station c)) eqn:Hs.
  2:{ rewrite (path_bad_station Hn Hu Hs). now constructor. }
  destruct (isAddress (contractAddr c)) eqn:Hc.
  2:{ rewrite (path_bad_contract Hn Hu Hs Hc). now constructor. }
  assert (Hv : valid_addresses c = true) by (apply valid_addresses_true; auto).
  destruct (string_or_not (station c)) as [(s & Hstr) | Hstr].
  2:{ destruct (path_not_a_string Hn Hu Hs Hc Hstr) as (e & ->). now constructor. }
  destruct (station_matches wallet (station c)) eqn:Hm.
  2:{ rewrite (path_mismatch s Hn Hu Hs Hc Hstr).
      - now apply Mismatch with s.
      - unfold station_matches in Hm. now rewrite Hstr in Hm. }
  destruct (signTypedData rnd wallet (domain (chainId c) (contractAddr c)) types (value_of c))
    as [sig | e] eqn:Hsig.
  - rewrite (path_signed sig Hn Hu Hs Hc Hm Hsig). now constructor.
  - rewrite (path_sign_failed e Hn Hu Hs Hc Hm Hsig). now constructor.
Qed.

End Paths.

(* ================================================================= *)
(** ** Consequences of the path analysis *)

Section Consequences.

Context {E : Ethers}.


(** A response of status 500 carries the message of an error that was
    caught and logged. *)
Lemma failure_is_logged (wallet : Wallet) (rnd : Entropy) (req_body : JSValue) (r : Response) :
  In r (responses (sign_stop wallet rnd req_body)) ->
  status r = 500%Z ->
  exists e, In (EvConsoleError e) (events (sign_stop wallet rnd req_body))
            /\ body r = error_body (message_or e "sign failed").
Proof.
  generalize (sign_stop_path wallet rnd req_body).
  generalize (sign_stop wallet rnd req_body) as m. intros m P.
  destruct P; cbn; intros [<- | []] Hst; cbn in Hst; try discriminate Hst;
    exists e; split; auto 8.
Qed.

(** The validator's answer depends on the request through [user], [station]
    and [contractAddr] only. *)
Lemma validation_rejection_decided (wallet : Wallet) (rnd : Entropy) (req_body : JSValue) :
  nullish req_body = false ->
  validation_rejection wallet rnd req_body =
    validator_decision wallet (user (claim_of req_body)) (station (claim_of req_body))
      (contractAddr (claim_of req_body)).
Proof.
  intros Hn. unfold validation_rejection, validator_decision.
  generalize (sign_stop_path wallet rnd req_body).
  generalize (sign_stop wallet rnd req_body) as m. intros m P.
  destruct P as [e H | H Hu | H Hu Hs | H Hu Hs Hc | e H Hv Hstr | s H Hv Hstr Hm
                 | sig H Hv Hm Hsig | e H Hv Hm Hsig];
    try congruence; cbn -[claim_of station_matches];
    try (unfold valid_addresses in Hv; rewrite Hv; cbn -[claim_of station_matches]).
  - now rewrite Hu.
  - now rewrite Hu, Hs.
  - now rewrite Hu, Hs, Hc.
  - destruct (station (claim_of req_body)) eqn:Hst; try reflexivity.
    exfalso. now apply (Hstr s).
  - rewrite Hm. now rewrite Hstr.
  - now rewrite Hm.
  - now rewrite Hm.
Qed.



End Consequences.

(* ================================================================= *)
(** ** The stand-in satisfies what is assumed of ethers *)

Import TestDouble.


Lemma stub_only_strings : isAddress_only_strings stub.
Proof.
  intros v H. destruct v; cbn in H; try discriminate. eauto.
Qed.


(* ================================================================= *)
(** ** The handler on a few requests *)

Example lookup_last_binding_wins :
  lookup "a" [("a", VNumber 1); ("b", VNull); ("a", VNumber 2)] = VNumber 2.
Proof. reflexivity. Qed.

Example toLowerCase_of_checksummed :
  String_toLowerCase "0xAbCdEf0123" = "0xabcdef0123".
Proof. reflexivity. Qed.

Example good_request_is_answered_200 :
  map status (responses (sign_stop (E:=stub) station_wallet 0%nat good_request)) = [200%Z]
  /\ length (sign_calls (sign_stop (E:=stub) station_wallet 0%nat good_request)) = 1%nat.
Proof. split; reflexivity. Qed.

Example bad_amount_is_answered_500 :
  responses (sign_stop (E:=stub) station_wallet 0%nat bad_amount_request)
  = [ mkResponse 500 (error_body "invalid BigNumber string") ].
Proof. reflexivity. Qed.

Example null_body_is_answered_500 :
  responses (sign_stop (E:=stub) station_wallet 0%nat VNull)
  = [ mkResponse 500
        (error_body "Cannot destructure property 'user' of 'req.body' as it is null.") ].
Proof. reflexivity. Qed.

Example array_body_is_answered_400 :
  responses (sign_stop (E:=stub) station_wallet 0%nat (VArray [addr1; addr2; addr3]))
  = [ mkResponse 400 (error_body "Bad address in payload") ].
Proof. reflexivity. Qed.

Example unprefixed_station_is_a_mismatch :
  responses (sign_stop (E:=stub) station_wallet 0%nat
               (request addr1 (VString "d089d1193ee7ecafcab2a085ae980068644d52b7")
                  session1 (VString "12345") (VNumber 1337) addr3))
  = [ mkResponse 400 (error_body "Station address mismatch") ].
Proof. reflexivity. Qed.

Example station_comparison_ignores_case :
  station_matches (E:=stub) station_wallet
    (VString "0XD089D1193EE7ECAFCAB2A085AE980068644D52B7") = true
  /\ station_matches (E:=stub)
       {| stub_privateKey := "0x01"; stub_address := "0xABCDEFabcdef0000000000000000000000000000" |}
       (VString "0xabcdefABCDEF0000000000000000000000000000") = true.
Proof. split; reflexivity. Qed.

(* ================================================================= *)
(** ** Properties of [POST /sign-stop] *)

Section Properties.

Context {E : Ethers}.
Variable wallet : Wallet.
Variable rnd : Entropy.
Variable req_body : JSValue.


(** C2: for every claim whose address fields are syntactically valid but
    whose station is not the service's own address (letter case apart), the
    one response is status 400 with "Station address mismatch", and the
    signer is never called. *)
Theorem other_station_is_rejected :
  isAddress_only_strings E ->
  nullish req_body = false ->
  valid_addresses (claim_of req_body) = true ->
  station_matches wallet (station (claim_of req_body)) = false ->
  responses (sign_stop wallet rnd req_body) =
    [ mkResponse 400 (error_body "Station address mismatch") ]
  /\ sign_calls (sign_stop wallet rnd req_body) = [].
Proof.
  intros Hlaw Hn Hv Hm.
  apply valid_addresses_true in Hv. destruct Hv as (Hu & Hs & Hc).
  destruct (Hlaw _ Hs) as (s & Hstr).
  assert (Hne : String.eqb (String_toLowerCase s) (String_toLowerCase (address wallet)) = false).
  { unfold station_matches in Hm. now rewrite Hstr in Hm. }
  rewrite (path_mismatch wallet rnd req_body s Hn Hu Hs Hc Hstr Hne).
  split; reflexivity.
Qed.

(** C3 (amended): for every claim in which user, station or contractAddr is
    a malformed address, the one response is status 400 with the message
    "Bad address in payload", whichever field it was, and the signer is
    never called. *)
Theorem bad_address_is_rejected :
  nullish req_body = false ->
  isAddress (user (claim_of req_body)) = false
  \/ isAddress (station (claim_of req_body)) = false
  \/ isAddress (contractAddr (claim_of req_body)) = false ->
  responses (sign_stop wallet rnd req_body) =
    [ mkResponse 400 (error_body "Bad address in payload") ]
  /\ sign_calls (sign_stop wallet rnd req_body) = [].
Proof.
  intros Hn Hbad.
  destruct (isAddress (user (claim_of req_body))) eqn:Hu.
  2:{ rewrite (path_bad_user wallet rnd req_body Hn Hu). split; reflexivity. }
  destruct (isAddress (station (claim_of req_body))) eqn:Hs.
  2:{ rewrite (path_bad_station wallet rnd req_body Hn Hu Hs). split; reflexivity. }
  destruct (isAddress (contractAddr (claim_of req_body))) eqn:Hc.
  2:{ rewrite (path_bad_contract wallet rnd req_body Hn Hu Hs Hc). split; reflexivity. }
  destruct Hbad as [H | [H | H]]; discriminate H.
Qed.

(** C4: the validator checks user, then station, then contractAddr, then
    the equality of station with the service's address, and stops at the
    first check that fails: the [isAddress] calls a run makes are those up
    to the first failing one, in that order, and the mismatch answer comes
    only after all three passed.  In particular a claim with a malformed
    address and a station that is not the service's gets the address
    rejection. *)
Theorem validator_checks_in_order :
  nullish req_body = false ->
  let c := claim_of req_body in
  let run := sign_stop wallet rnd req_body in
  (isAddress (user c) = false ->
   events run = [ EvIsAddress (user c);
                  EvStatus 400; EvJson (error_body "Bad address in payload") ])
  /\ (isAddress (user c) = true -> isAddress (station c) = false ->
      events run = [ EvIsAddress (user c); EvIsAddress (station c);
                     EvStatus 400; EvJson (error_body "Bad address in payload") ])
  /\ (isAddress (user c) = true -> isAddress (station c) = true ->
      isAddress (contractAddr c) = false ->
      events run = [ EvIsAddress (user c); EvIsAddress (station c);
                     EvIsAddress (contractAddr c);
                     EvStatus 400; EvJson (error_body "Bad address in payload") ])
  /\ (valid_addresses c = true ->
      forall s, station c = VString s ->
      station_matches wallet (station c) = false ->
      events run = [ EvIsAddress (user c); EvIsAddress (station c);
                     EvIsAddress (contractAddr c);
                     EvStatus 400; EvJson (error_body "Station address mismatch") ])
  /\ (valid_addresses c = false ->
      station_matches wallet (station c) = false ->
      responses run = [ mkResponse 400 (error_body "Bad address in payload") ]).
Proof.
  intros Hn c run. subst c run. repeat split.
  - intros Hu. now rewrite (path_bad_user wallet rnd req_body Hn Hu).
  - intros Hu Hs. now rewrite (path_bad_station wallet rnd req_body Hn Hu Hs).
  - intros Hu Hs Hc. now rewrite (path_bad_contract wallet rnd req_body Hn Hu Hs Hc).
  - intros Hv s Hstr Hm.
    apply valid_addresses_true in Hv. destruct Hv as (Hu & Hs & Hc).
    assert (Hne : String.eqb (String_toLowerCase s)
                    (String_toLowerCase (address wallet)) = false).
    { unfold station_matches in Hm. now rewrite Hstr in Hm. }
    now rewrite (path_mismatch wallet rnd req_body s Hn Hu Hs Hc Hstr Hne).
  - intros Hv _.
    destruct (isAddress (user (claim_of req_body))) eqn:Hu.
    2:{ now rewrite (path_bad_user wallet rnd req_body Hn Hu). }
    destruct (isAddress (station (claim_of req_body))) eqn:Hs.
    2:{ now rewrite (path_bad_station wallet rnd req_body Hn Hu Hs). }
    destruct (isAddress (contractAddr (claim_of req_body))) eqn:Hc.
    2:{ now rewrite (path_bad_contract wallet rnd req_body Hn Hu Hs Hc). }
    unfold valid_addresses in Hv. rewrite Hu, Hs, Hc in Hv. discriminate Hv.
Qed.

(** C5: for every accepted claim the signer is called once, with the domain
    [{name: "EVEnergy", version: "1", chainId, verifyingContract:
    contractAddr}] built from the claim's own chainId and contractAddr,
    with the schema [SessionStop] listing user: address, station: address,
    sessionId: bytes32, kWhMilli: uint256, chainId: uint256, contractAddr:
    address in this order, and with the claim's six values. *)
Theorem signer_is_given_domain_and_schema :
  nullish req_body = false ->
  valid_addresses (claim_of req_body) = true ->
  station_matches wallet (station (claim_of req_body)) = true ->
  sign_calls (sign_stop wallet rnd req_body) =
    [ EvSignTypedData
        (VObject [ ("name", VString "EVEnergy");
                   ("version", VString "1");
                   ("chainId", chainId (claim_of req_body));
                   ("verifyingContract", contractAddr (claim_of req_body)) ])
        (VObject [ ("SessionStop",
                    VArray [ VObject [("name", VString "user"); ("type", VString "address")];
                             VObject [("name", VString "station"); ("type", VString "address")];
                             VObject [("name", VString "sessionId"); ("type", VString "bytes32")];
                             VObject [("name", VString "kWhMilli"); ("type", VString "uint256")];
                             VObject [("name", VString "chainId"); ("type", VString "uint256")];
                             VObject [("name", VString "contractAddr"); ("type", VString "address")] ]) ])
        (VObject [ ("user", user (claim_of req_body));
                   ("station", station (claim_of req_body));
                   ("sessionId", sessionId (claim_of req_body));
                   ("kWhMilli", kWhMilli (claim_of req_body));
                   ("chainId", chainId (claim_of req_body));
                   ("contractAddr", contractAddr (claim_of req_body)) ]) ].
Proof.
  intros Hn Hv Hm.
  apply valid_addresses_true in Hv. destruct Hv as (Hu & Hs & Hc).
  destruct (signer_answer wallet rnd (claim_of req_body)) as [sig | e] eqn:Hsig.
  - now rewrite (path_signed wallet rnd req_body sig Hn Hu Hs Hc Hm Hsig).
  - now rewrite (path_sign_failed wallet rnd req_body e Hn Hu Hs Hc Hm Hsig).
Qed.



(** C8: two claims with the same user, station and contractAddr get the
    same answer from the validator, whatever their sessionId, kWhMilli and
    chainId; hence no value of those three fields turns an accepted claim
    into a rejected one. *)
Theorem validation_ignores_opaque_fields (rnd' : Entropy) (req_body' : JSValue) :
  nullish req_body = false ->
  nullish req_body' = false ->
  user (claim_of req_body) = user (claim_of req_body') ->
  station (claim_of req_body) = station (claim_of req_body') ->
  contractAddr (claim_of req_body) = contractAddr (claim_of req_body') ->
  validation_rejection wallet rnd req_body = validation_rejection wallet rnd' req_body'
  /\ (validation_rejection wallet rnd req_body = None ->
      validation_rejection wallet rnd' req_body' = None).
Proof.
  intros Hn Hn' Hu Hs Hc.
  assert (Heq : validation_rejection wallet rnd req_body
                = validation_rejection wallet rnd' req_body').
  { rewrite !validation_rejection_decided by assumption. now rewrite Hu, Hs, Hc. }
  split; [exact Heq | now rewrite Heq].
Qed.

(** C10: for every claim that passes validation but whose typed data the
    signer refuses with an error [e] (a sessionId or kWhMilli that does not
    fit the schema), the one response is status 500 with the message of
    [e]; it is not a validation rejection, and [e] is logged. *)
Theorem unencodable_claim_is_server_error (e : JSError) :
  nullish req_body = false ->
  valid_addresses (claim_of req_body) = true ->
  station_matches wallet (station (claim_of req_body)) = true ->
  signer_answer wallet rnd (claim_of req_body) = Throw e ->
  responses (sign_stop wallet rnd req_body) =
    [ mkResponse 500 (error_body (message_or e "sign failed")) ]
  /\ validation_rejection wallet rnd req_body = None
  /\ In (EvConsoleError e) (events (sign_stop wallet rnd req_body)).
Proof.
  intros Hn Hv Hm Hsig.
  apply valid_addresses_true in Hv. destruct Hv as (Hu & Hs & Hc).
  unfold validation_rejection.
  rewrite (path_sign_failed wallet rnd req_body e Hn Hu Hs Hc Hm Hsig).
  repeat split; cbn; auto 8.
Qed.

End Properties.

(* ================================================================= *)
(** ** The properties at concrete requests *)





Lemma other_station_is_rejected_witness :
  responses (sign_stop (E:=stub) station_wallet 0%nat other_station_request)
  = [ mkResponse 400 (error_body "Station address mismatch") ]
  /\ sign_calls (sign_stop (E:=stub) station_wallet 0%nat other_station_request) = [].
Proof.
  apply (other_station_is_rejected (E:=stub) station_wallet 0%nat other_station_request
           stub_only_strings);
    reflexivity.
Defined.

(** C3 as stated fails: a request without [user] and a request with a
    malformed [contractAddr] get the very same body, whose message names
    neither field. *)
Lemma bad_address_message_names_no_field :
  isAddress (Ethers:=stub) (user (claim_of no_user_request)) = false
  /\ isAddress (Ethers:=stub) (contractAddr (claim_of bad_contract_request)) = false
  /\ responses (sign_stop (E:=stub) station_wallet 0%nat no_user_request)
     = [ mkResponse 400 (error_body "Bad address in payload") ]
  /\ responses (sign_stop (E:=stub) station_wallet 0%nat bad_contract_request)
     = [ mkResponse 400 (error_body "Bad address in payload") ]
  /\ names_field "Bad address in payload" "user" = false
  /\ names_field "Bad address in payload" "station" = false
  /\ names_field "Bad address in payload" "contractAddr" = false.
Proof. repeat split. Qed.

Lemma bad_address_is_rejected_witness :
  responses (sign_stop (E:=stub) station_wallet 0%nat bad_contract_request)
  = [ mkResponse 400 (error_body "Bad address in payload") ]
  /\ sign_calls (sign_stop (E:=stub) station_wallet 0%nat bad_contract_request) = [].
Proof.
  apply (bad_address_is_rejected (E:=stub) station_wallet 0%nat bad_contract_request).
  - reflexivity.
  - right; right. reflexivity.
Defined.

Lemma validator_checks_in_order_witness :
  events (sign_stop (E:=stub) station_wallet 0%nat no_user_request)
  = [ EvIsAddress VUndefined;
      EvStatus 400; EvJson (error_body "Bad address in payload") ]
  /\ events (sign_stop (E:=stub) station_wallet 0%nat bad_contract_request)
     = [ EvIsAddress addr1; EvIsAddress addr2; EvIsAddress (VString "0x33");
         EvStatus 400; EvJson (error_body "Bad address in payload") ]
  /\ events (sign_stop (E:=stub) station_wallet 0%nat other_station_request)
     = [ EvIsAddress addr1; EvIsAddress addr4; EvIsAddress addr3;
         EvStatus 400; EvJson (error_body "Station address mismatch") ].
Proof.
  split; [| split].
  - apply (validator_checks_in_order (E:=stub) station_wallet 0%nat no_user_request); reflexivity.
  - apply (validator_checks_in_order (E:=stub) station_wallet 0%nat bad_contract_request); reflexivity.
  - apply (validator_checks_in_order (E:=stub) station_wallet 0%nat other_station_request)
      with (s := "0x4444444444444444444444444444444444444444"); reflexivity.
Defined.

Lemma signer_is_given_domain_and_schema_witness :
  sign_calls (sign_stop (E:=stub) station_wallet 0%nat good_request)
  = [ EvSignTypedData
        (VObject [ ("name", VString "EVEnergy"); ("version", VString "1");
                   ("chainId", VNumber 1337); ("verifyingContract", addr3) ])
        types
        good_request ].
Proof.
  apply (signer_is_given_domain_and_schema (E:=stub) station_wallet 0%nat good_request); reflexivity.
Defined.

Lemma validation_ignores_opaque_fields_witness :
  validation_rejection (E:=stub) station_wallet 0%nat other_station_request
  = validation_rejection (E:=stub) station_wallet 1%nat
      (request addr1 addr4 (VString "0x01") (VString "abc") VNull addr3)
  /\ (validation_rejection (E:=stub) station_wallet 0%nat other_station_request = None ->
      validation_rejection (E:=stub) station_wallet 1%nat
        (request addr1 addr4 (VString "0x01") (VString "abc") VNull addr3) = None).
Proof.
  apply (validation_ignores_opaque_fields (E:=stub) station_wallet 0%nat other_station_request 1%nat
           (request addr1 addr4 (VString "0x01") (VString "abc") VNull addr3));
    reflexivity.
Defined.

Lemma unencodable_claim_is_server_error_witness :
  responses (sign_stop (E:=stub) station_wallet 0%nat short_session_request)
  = [ mkResponse 500 (error_body "invalid length for bytes32") ]
  /\ validation_rejection (E:=stub) station_wallet 0%nat short_session_request = None
  /\ In (EvConsoleError (mkError "Error" "invalid length for bytes32"))
        (events (sign_stop (E:=stub) station_wallet 0%nat short_session_request)).
Proof.
  apply (unencodable_claim_is_server_error (E:=stub) station_wallet 0%nat short_session_request
           (mkError "Error" "invalid length for bytes32"));
    reflexivity.
Defined.

(* ================================================================= *)
(** ** Further properties of the handler *)

Lemma lookup_skip (k k' : string) (v : JSValue) (rest : list (string * JSValue)) :
  String.eqb k k' = false -> lookup k ((k', v) :: rest) = lookup k rest.
Proof.
  intros H. cbn. rewrite H. now destruct (lookup k rest).
Qed.

Lemma lookup_here (k : string) (v : JSValue) (rest : list (string * JSValue)) :
  lookup k rest = VUndefined -> lookup k ((k, v) :: rest) = v.
Proof.
  intros H. cbn. rewrite H, String.eqb_refl. reflexivity.
Qed.

(** Read a key of an object whose keys are written out. *)
Ltac read_key :=
  repeat (rewrite lookup_skip by reflexivity);
  try (rewrite lookup_here by (repeat (rewrite lookup_skip by reflexivity); reflexivity));
  reflexivity.

Lemma get_prop_value_of (c : Claim) :
  get_prop (value_of c) "user" = user c
  /\ get_prop (value_of c) "station" = station c
  /\ get_prop (value_of c) "sessionId" = sessionId c
  /\ get_prop (value_of c) "kWhMilli" = kWhMilli c
  /\ get_prop (value_of c) "chainId" = chainId c
  /\ get_prop (value_of c) "contractAddr" = contractAddr c.
Proof.
  unfold value_of, get_prop. repeat split; read_key.
Qed.

(** The signer call of an accepted claim. *)
Lemma sign_calls_accepted {E : Ethers} (wallet : Wallet) (rnd : Entropy) (req_body : JSValue) :
  nullish req_body = false ->
  valid_addresses (claim_of req_body) = true ->
  station_matches wallet (station (claim_of req_body)) = true ->
  sign_calls (sign_stop wallet rnd req_body)
  = [ EvSignTypedData
        (domain (chainId (claim_of req_body)) (contractAddr (claim_of req_body)))
        types (value_of (claim_of req_body)) ]
  /\ isAddress_calls (sign_stop wallet rnd req_body) = address_checks (claim_of req_body).
Proof.
  intros Hn Hv Hm.
  apply valid_addresses_true in Hv. destruct Hv as (Hu & Hs & Hc).
  destruct (signer_answer wallet rnd (claim_of req_body)) as [sig | e] eqn:Hsig.
  - now rewrite (path_signed wallet rnd req_body sig Hn Hu Hs Hc Hm Hsig).
  - now rewrite (path_sign_failed wallet rnd req_body e Hn Hu Hs Hc Hm Hsig).
Qed.

Section Further.

Context {E : Ethers}.
Variable wallet : Wallet.
Variable rnd : Entropy.
Variable req_body : JSValue.

(** X2: the handler reads the six named properties of the body and no
    other: two bodies that destructure to the same claim are handled
    alike, event for event. *)
Theorem unread_properties_are_ignored (req_body' : JSValue) :
  nullish req_body = false ->
  nullish req_body' = false ->
  claim_of req_body = claim_of req_body' ->
  sign_stop wallet rnd req_body = sign_stop wallet rnd req_body'.
Proof.
  intros Hn Hn' Hc. unfold sign_stop, destructure.
  rewrite Hn, Hn'. run. now rewrite Hc.
Qed.

(** X3: a signature is returned only for the service's own station: a
    response of status 200 means that the three addresses were valid, that
    station is the service's address (letter case apart), and that the body
    holds what the signer returned for this very claim, with the service's
    address as signer. *)
Theorem signature_only_for_own_station (r : Response) :
  In r (responses (sign_stop wallet rnd req_body)) ->
  status r = 200%Z ->
  valid_addresses (claim_of req_body) = true
  /\ station_matches wallet (station (claim_of req_body)) = true
  /\ exists sig,
       signer_answer wallet rnd (claim_of req_body) = Normal sig
       /\ body r = VObject [ ("signature", VString sig);
                             ("signer", VString (address wallet)) ].
Proof.
  generalize (sign_stop_path wallet rnd req_body).
  generalize (sign_stop wallet rnd req_body) as m. intros m P.
  destruct P; cbn -[claim_of]; intros [<- | []] Hst; cbn in Hst; try discriminate Hst.
  repeat split; auto. exists sig. split; auto.
Qed.

(** X4: for a body that can be destructured, the status code tells what
    happened, and nothing else produces it: 400 exactly when an address is
    malformed or the station is not the service's; 500 exactly when the
    claim passed both checks and the signer threw; 200 exactly when it
    passed both and the signer returned. *)
Theorem status_tells_what_happened :
  isAddress_only_strings E ->
  nullish req_body = false ->
  let c := claim_of req_body in
  let accepted := valid_addresses c && station_matches wallet (station c) in
  (statuses (sign_stop wallet rnd req_body) = [400%Z] <-> accepted = false)
  /\ (statuses (sign_stop wallet rnd req_body) = [500%Z]
      <-> accepted = true /\ exists e, signer_answer wallet rnd c = Throw e)
  /\ (statuses (sign_stop wallet rnd req_body) = [200%Z]
      <-> accepted = true /\ exists sig, signer_answer wallet rnd c = Normal sig).
Proof.
  intros Hlaw Hn c accepted. subst c accepted. unfold signer_answer.
  generalize (sign_stop_path wallet rnd req_body).
  generalize (sign_stop wallet rnd req_body) as m. intros m P.
  destruct P as [e H | H Hu | H Hu Hs | H Hu Hs Hc | e H Hv Hstr | s H Hv Hstr Hm
                 | sig H Hv Hm Hsig | e H Hv Hm Hsig];
    try congruence.
  - unfold valid_addresses. rewrite Hu. cbn.
    repeat split; try discriminate; intros (Hf & _); discriminate Hf.
  - unfold valid_addresses. rewrite Hu, Hs. cbn.
    repeat split; try discriminate; intros (Hf & _); discriminate Hf.
  - unfold valid_addresses. rewrite Hu, Hs, Hc. cbn.
    repeat split; try discriminate; intros (Hf & _); discriminate Hf.
  - exfalso. apply valid_addresses_true in Hv. destruct Hv as (_ & Hs & _).
    destruct (Hlaw _ Hs) as (s & Hs'). now apply (Hstr s).
  - rewrite Hv, Hm. cbn.
    repeat split; try discriminate; intros (Hf & _); discriminate Hf.
  - rewrite Hv, Hm, Hsig. cbn. repeat split; try discriminate; eauto.
    intros (_ & e & He). discriminate He.
  - rewrite Hv, Hm, Hsig. cbn. repeat split; try discriminate; eauto.
    intros (_ & sig & He). discriminate He.
Qed.

(** X5: [console.error] is called exactly for the responses of status 500:
    a rejected or signed request leaves no log entry, a failed one leaves
    one. *)
Theorem logged_iff_server_error :
  (exists e, In (EvConsoleError e) (events (sign_stop wallet rnd req_body)))
  <-> statuses (sign_stop wallet rnd req_body) = [500%Z].
Proof.
  generalize (sign_stop_path wallet rnd req_body).
  generalize (sign_stop wallet rnd req_body) as m. intros m P.
  destruct P; cbn; split; try discriminate; try reflexivity;
    try (intros _; exists e; tauto);
    intros (e' & He'); repeat (destruct He' as [He' | He']; try discriminate He');
    destruct He'.
Qed.

(** X6: a claim that lacks one of the three address fields, or holds
    something other than a string there, is a client error: the answer is
    400 "Bad address in payload", without a signer call and without a log
    entry. *)
Theorem missing_field_is_client_error :
  isAddress_only_strings E ->
  nullish req_body = false ->
  (forall s, user (claim_of req_body) <> VString s)
  \/ (forall s, station (claim_of req_body) <> VString s)
  \/ (forall s, contractAddr (claim_of req_body) <> VString s) ->
  responses (sign_stop wallet rnd req_body)
  = [ mkResponse 400 (error_body "Bad address in payload") ]
  /\ sign_calls (sign_stop wallet rnd req_body) = []
  /\ forall e, ~ In (EvConsoleError e) (events (sign_stop wallet rnd req_body)).
Proof.
  intros Hlaw Hn Hmiss.
  assert (Hnot : forall v, (forall s, v <> VString s) -> isAddress v = false).
  { intros v Hv. destruct (isAddress v) eqn:Hi; [| reflexivity].
    destruct (Hlaw _ Hi) as (s & Hs). now destruct (Hv s). }
  destruct (isAddress (user (claim_of req_body))) eqn:Hu.
  2:{ rewrite (path_bad_user wallet rnd req_body Hn Hu). repeat split.
      intros e He. cbn in He. intuition discriminate. }
  destruct (isAddress (station (claim_of req_body))) eqn:Hs.
  2:{ rewrite (path_bad_station wallet rnd req_body Hn Hu Hs). repeat split.
      intros e He. cbn in He. intuition discriminate. }
  destruct (isAddress (contractAddr (claim_of req_body))) eqn:Hc.
  2:{ rewrite (path_bad_contract wallet rnd req_body Hn Hu Hs Hc). repeat split.
      intros e He. cbn in He. intuition discriminate. }
  destruct Hmiss as [H | [H | H]]; apply Hnot in H; congruence.
Qed.

(** X7: sending the response is the last thing the handler does: every run
    ends with its one [res.json], and whatever it checked, signed or logged
    came before. *)
Theorem response_is_the_last_event :
  exists tr b,
    events (sign_stop wallet rnd req_body) = tr ++ [EvJson b]
    /\ sent_from 200 tr = [].
Proof.
  generalize (sign_stop_path wallet rnd req_body).
  generalize (sign_stop wallet rnd req_body) as m. intros m P.
  destruct P; cbn -[claim_of value_of domain types];
    match goal with
    | |- exists tr b, ?l = _ /\ _ => exists (removelast l)
    end; eexists; split; reflexivity.
Qed.

(** X9: schema, value and validation agree: in the signer call of an
    accepted claim the value has exactly the keys the [SessionStop] schema
    declares, in the schema's order, and the fields the schema types as
    [address] are exactly those [isAddress] was asked about, in that
    order. *)
Theorem schema_agrees_with_value_and_checks :
  nullish req_body = false ->
  valid_addresses (claim_of req_body) = true ->
  station_matches wallet (station (claim_of req_body)) = true ->
  exists d t v,
    sign_calls (sign_stop wallet rnd req_body) = [EvSignTypedData d t v]
    /\ keys v = map fst (schema_fields t "SessionStop")
    /\ isAddress_calls (sign_stop wallet rnd req_body)
       = map (fun name => EvIsAddress (get_prop v name))
           (fields_of_type t "SessionStop" "address").
Proof.
  intros Hn Hv Hm.
  destruct (sign_calls_accepted wallet rnd req_body Hn Hv Hm) as (Hcall & Hchecks).
  do 3 eexists. split; [exact Hcall |]. split; [reflexivity |].
  rewrite Hchecks.
  destruct (get_prop_value_of (claim_of req_body)) as (Hu & Hs & _ & _ & _ & Ha).
  cbn [fields_of_type schema_fields types get_prop lookup flat_map filter map fst snd
       field app String.eqb Ascii.eqb Bool.eqb].
  cbn -[value_of claim_of get_prop].
  rewrite Hu, Hs, Ha. reflexivity.
Qed.

(** X10: a body that is [undefined] or [null] is a server error before
    any check: destructuring throws, the [TypeError] is logged and its
    message is the 500 body; neither [isAddress] nor the signer is called. *)
Theorem missing_body_is_server_error :
  nullish req_body = true ->
  events (sign_stop wallet rnd req_body)
  = caught (mkError "TypeError"
              ("Cannot destructure property 'user' of 'req.body' as it is "
               ++ printed req_body ++ ".")).
Proof.
  intros Hn. unfold sign_stop, destructure. rewrite Hn. reflexivity.
Qed.

(** X11: [isAddress] is asked about user, station and contractAddr only,
    in this order and each at most once, whatever the outcome of the
    request; sessionId, kWhMilli and chainId are never shown to it.  All
    three are asked about exactly when none was found malformed before. *)
Theorem only_address_fields_are_checked :
  exists n,
    isAddress_calls (sign_stop wallet rnd req_body)
    = firstn n (address_checks (claim_of req_body))
    /\ (n <= 3)%nat
    /\ (nullish req_body = false ->
        (n = 3%nat <-> isAddress (user (claim_of req_body))
                       && isAddress (station (claim_of req_body)) = true)).
Proof.
  generalize (sign_stop_path wallet rnd req_body).
  generalize (sign_stop wallet rnd req_body) as m. intros m P.
  destruct P as [e H | H Hu | H Hu Hs | H Hu Hs Hc | e H Hv Hstr | s H Hv Hstr Hm
                 | sig H Hv Hm Hsig | e H Hv Hm Hsig];
    try (apply valid_addresses_true in Hv; destruct Hv as (Hu & Hs & Hc)).
  - exists 0%nat. repeat split; try lia; congruence.
  - exists 1%nat. rewrite Hu. repeat split; try lia; try discriminate.
  - exists 2%nat. rewrite Hu, Hs. repeat split; try lia; try discriminate.
  - exists 3%nat. rewrite Hu, Hs. repeat split; lia.
  - exists 3%nat. rewrite Hu, Hs. repeat split; lia.
  - exists 3%nat. rewrite Hu, Hs. repeat split; lia.
  - exists 3%nat. rewrite Hu, Hs. repeat split; lia.
  - exists 3%nat. rewrite Hu, Hs. repeat split; lia.
Qed.

(** X12: domain and message agree: in the signer call of an accepted
    claim the domain's chainId and verifyingContract are the very chainId
    and contractAddr of the value being signed. *)
Theorem domain_agrees_with_value :
  nullish req_body = false ->
  valid_addresses (claim_of req_body) = true ->
  station_matches wallet (station (claim_of req_body)) = true ->
  exists d t v,
    sign_calls (sign_stop wallet rnd req_body) = [EvSignTypedData d t v]
    /\ get_prop d "chainId" = get_prop v "chainId"
    /\ get_prop d "verifyingContract" = get_prop v "contractAddr"
    /\ get_prop v "chainId" = chainId (claim_of req_body)
    /\ get_prop v "contractAddr" = contractAddr (claim_of req_body).
Proof.
  intros Hn Hv Hm.
  destruct (sign_calls_accepted wallet rnd req_body Hn Hv Hm) as (Hcall & _).
  do 3 eexists. split; [exact Hcall |].
  destruct (get_prop_value_of (claim_of req_body)) as (_ & _ & _ & _ & Hc & Ha).
  rewrite Hc, Ha. unfold domain, get_prop. repeat split; read_key.
Qed.

End Further.

(** *** At concrete requests *)

Lemma unread_properties_are_ignored_witness :
  let extended :=
    VObject [ ("note", VString "hello"); ("contractAddr", addr3); ("user", addr1);
              ("station", addr2); ("sessionId", session1); ("kWhMilli", VString "12345");
              ("chainId", VNumber 1337); ("admin", VBool true) ] in
  sign_stop (E:=stub) station_wallet 0%nat good_request
  = sign_stop (E:=stub) station_wallet 0%nat extended.
Proof.
  apply (unread_properties_are_ignored (E:=stub) station_wallet 0%nat good_request);
    reflexivity.
Defined.

Lemma signature_only_for_own_station_witness :
  valid_addresses (E:=stub) (claim_of good_request) = true
  /\ station_matches (E:=stub) station_wallet (station (claim_of good_request)) = true
  /\ exists sig,
       signer_answer (E:=stub) station_wallet 0%nat (claim_of good_request) = Normal sig
       /\ VObject [ ("signature",
                     VString (digest (domain (VNumber 1337) addr3) types good_request
                              ++ stub_address station_wallet)%string);
                    ("signer", VString (stub_address station_wallet)) ]
          = VObject [ ("signature", VString sig);
                      ("signer", VString (stub_address station_wallet)) ].
Proof.
  apply (signature_only_for_own_station (E:=stub) station_wallet 0%nat good_request
           (mkResponse 200
              (VObject [ ("signature",
                          VString (digest (domain (VNumber 1337) addr3) types good_request
                                   ++ stub_address station_wallet)%string);
                         ("signer", VString (stub_address station_wallet)) ]))).
  - left. reflexivity.
  - reflexivity.
Defined.

Lemma status_tells_what_happened_witness :
  statuses (sign_stop (E:=stub) station_wallet 0%nat other_station_request) = [400%Z]
  /\ statuses (sign_stop (E:=stub) station_wallet 0%nat short_session_request) = [500%Z]
  /\ statuses (sign_stop (E:=stub) station_wallet 0%nat good_request) = [200%Z].
Proof.
  split; [| split].
  - apply (status_tells_what_happened (E:=stub) station_wallet 0%nat other_station_request
             stub_only_strings eq_refl).
    reflexivity.
  - apply (status_tells_what_happened (E:=stub) station_wallet 0%nat short_session_request
             stub_only_strings eq_refl).
    split; [reflexivity | eexists; reflexivity].
  - apply (status_tells_what_happened (E:=stub) station_wallet 0%nat good_request
             stub_only_strings eq_refl).
    split; [reflexivity | eexists; reflexivity].
Defined.

Lemma missing_field_is_client_error_witness :
  responses (sign_stop (E:=stub) station_wallet 0%nat no_user_request)
  = [ mkResponse 400 (error_body "Bad address in payload") ]
  /\ sign_calls (sign_stop (E:=stub) station_wallet 0%nat no_user_request) = []
  /\ forall e, ~ In (EvConsoleError e)
                  (events (sign_stop (E:=stub) station_wallet 0%nat no_user_request)).
Proof.
  apply (missing_field_is_client_error (E:=stub) station_wallet 0%nat no_user_request
           stub_only_strings eq_refl).
  left. intros s H. discriminate H.
Defined.

Lemma schema_agrees_with_value_and_checks_witness :
  exists d t v,
    sign_calls (sign_stop (E:=stub) station_wallet 0%nat good_request)
    = [EvSignTypedData d t v]
    /\ keys v = map fst (schema_fields t "SessionStop")
    /\ isAddress_calls (sign_stop (E:=stub) station_wallet 0%nat good_request)
       = map (fun name => EvIsAddress (get_prop v name))
           (fields_of_type t "SessionStop" "address").
Proof.
  apply (schema_agrees_with_value_and_checks (E:=stub) station_wallet 0%nat good_request);
    reflexivity.
Defined.

Lemma missing_body_is_server_error_witness :
  events (sign_stop (E:=stub) station_wallet 0%nat VUndefined)
  = [ EvConsoleError
        (mkError "TypeError"
           "Cannot destructure property 'user' of 'req.body' as it is undefined.");
      EvStatus 500;
      EvJson (error_body
                "Cannot destructure property 'user' of 'req.body' as it is undefined.") ].
Proof.
  apply (missing_body_is_server_error (E:=stub) station_wallet 0%nat VUndefined).
  reflexivity.
Defined.

Lemma domain_agrees_with_value_witness :
  exists d t v,
    sign_calls (sign_stop (E:=stub) station_wallet 0%nat good_request)
    = [EvSignTypedData d t v]
    /\ get_prop d "chainId" = get_prop v "chainId"
    /\ get_prop d "verifyingContract" = get_prop v "contractAddr"
    /\ get_prop v "chainId" = VNumber 1337
    /\ get_prop v "contractAddr" = addr3.
Proof.
  apply (domain_agrees_with_value (E:=stub) station_wallet 0%nat good_request);
    reflexivity.
Defined.
